(** * conceptnet5.nodes: concept URIs from language codes and text

    A shallow embedding of [conceptnet5/nodes.py] and the properties its
    specification states about it.

    Python strings are Rocq strings (sequences of 8-bit characters, the
    UTF-8 bytes of the text).  [str.lower] is modelled on the ASCII range,
    where every language code of the registry lives; bytes above 127 are
    left as they are.  Python exceptions are values of [result]. *)

From Stdlib Require Import Bool Arith Lia List NArith Ascii String.
Import ListNotations.
Local Open Scope list_scope.
Local Open Scope string_scope.

(** ** Exceptions *)

Inductive exn : Type :=
| NotImplementedError (msg : string)
| IndexError
| RecursionError.

Inductive result (A : Type) : Type :=
| Ok (a : A)
| Raise (e : exn).

Arguments Ok {A} a.
Arguments Raise {A} e.

Definition bind {A B : Type} (r : result A) (k : A -> result B) : result B :=
  match r with
  | Ok a => k a
  | Raise e => Raise e
  end.

Notation "x <- r ;; k" := (bind r (fun x => k))
  (at level 61, r at next level, right associativity).

(** [l[i]] on a Python list. *)
Definition list_index {A : Type} (l : list A) (i : nat) : result A :=
  match nth_error l i with
  | Some x => Ok x
  | None => Raise IndexError
  end.

(** ** Python string built-ins used by the module *)

Module Py.

(** [c.lower()] for one character. *)
Definition lower_char (c : ascii) : ascii :=
  let n := N_of_ascii c in
  if ((65 <=? n) && (n <=? 90))%N then ascii_of_N (n + 32) else c.

(** [s.lower()]. *)
Fixpoint lower (s : string) : string :=
  match s with
  | EmptyString => EmptyString
  | String c r => String (lower_char c) (lower r)
  end.

(** [s.replace(old, new)] for one-character [old] and [new]. *)
Fixpoint replace (old new : ascii) (s : string) : string :=
  match s with
  | EmptyString => EmptyString
  | String c r => String (if Ascii.eqb c old then new else c) (replace old new r)
  end.

(** [sep.join(l)]. *)
Definition join (sep : string) (l : list string) : string := String.concat sep l.

(** [s.startswith(p)]. *)
Definition startswith (p s : string) : bool := String.prefix p s.

(** [s.lstrip(c)] for a one-character [c]. *)
Fixpoint lstrip (c : ascii) (s : string) : string :=
  match s with
  | EmptyString => EmptyString
  | String a r => if Ascii.eqb a c then lstrip c r else s
  end.

(** [s.split(sep)] for a one-character [sep]: never empty, and an empty
    piece between two adjacent separators or at either end. *)
Fixpoint split (sep : ascii) (s : string) : list string :=
  match s with
  | EmptyString => [EmptyString]
  | String a r =>
      if Ascii.eqb a sep then EmptyString :: split sep r
      else match split sep r with
           | [] => [String a EmptyString]
           | piece :: pieces => String a piece :: pieces
           end
  end.

(** [c in s] for a one-character [c]. *)
Fixpoint contains (c : ascii) (s : string) : bool :=
  match s with
  | EmptyString => false
  | String a r => Ascii.eqb a c || contains c r
  end.

(** [bool(s)]: a string is true when it is not empty. *)
Definition truthy (s : string) : bool :=
  match s with
  | EmptyString => false
  | String _ _ => true
  end.

End Py.

(** ** The regular expression of [topic_to_concept] *)

Module Re.

(** The longest prefix of [s] free of [c], and what follows it: where a
    greedy [[^c]+] stops first. *)
Fixpoint span_not (c : ascii) (s : string) : string * string :=
  match s with
  | EmptyString => (EmptyString, EmptyString)
  | String a r =>
      if Ascii.eqb a c then (EmptyString, s)
      else let (run, rest) := span_not c r in (String a run, rest)
  end.

(** [s] split into all but its last character, and that character. *)
Fixpoint chop_last (s : string) : option (string * ascii) :=
  match s with
  | EmptyString => None
  | String a r =>
      match chop_last r with
      | None => Some (EmptyString, a)
      | Some (init, last) => Some (String a init, last)
      end
  end.

(** [re.match(r'([^(]+) \(([^)]+)\)', topic)], as [Some (group(1), group(2))]
    or [None].  [[^(]+] runs greedily up to the first parenthesis (or the
    end); the character the pattern wants next is a space, which the run
    has swallowed, so the matcher backs off: by one character only, since
    the space must be followed by ["("] and the run holds none.  [[^)]+]
    then runs up to the first [")"], which must be there: backing off would
    leave a character other than [")"] to match it.  Nothing is asked of
    what follows ([re.match] anchors at the start only). *)
Definition match_title (topic : string) : option (string * string) :=
  let (run1, after1) := span_not "(" topic in
  match chop_last run1 with
  | Some (String a g as group1, " "%char) =>
      match after1 with
      | String "("%char inside =>
          let (group2, after2) := span_not ")" inside in
          match group2, after2 with
          | String _ _, String ")"%char _ => Some (group1, group2)
          | _, _ => None
          end
      | _ => None
      end
  | _ => None
  end.

End Re.

(** ** The language registry *)

(** [LCODE_ALIASES], in the order of the source. *)
Definition LCODE_ALIASES : list (string * string) :=
  [ ("cmn", "zh"); ("yue", "zh"); ("zh_tw", "zh"); ("zh_cn", "zh");
    ("zh-tw", "zh"); ("zh-cn", "zh");
    ("nds-de", "nds"); ("nds-nl", "nds");
    ("zsm", "ms"); ("id", "ms");
    ("nn", "no"); ("nb", "no");
    ("bs", "sh"); ("hr", "sh"); ("sr", "sh"); ("hbs", "sh");
    ("sr-latn", "sh"); ("sr-cyrl", "sh");
    ("arb", "ar"); ("arz", "ar"); ("ary", "ar"); ("ckb", "ku");
    ("mvf", "mn"); ("tl", "fil"); ("vro", "et"); ("sgs", "lt");
    ("ciw", "oj"); ("xal", "xwo"); ("ffm", "ff") ].

(** [d[key]] guarded by [key in d], for a dict written as its item list
    (the keys of the literal are distinct). *)
Fixpoint dict_get (d : list (string * string)) (key : string) : option string :=
  match d with
  | [] => None
  | (k, v) :: d' => if String.eqb key k then Some v else dict_get d' key
  end.

(** The canonicalisation step of [standardized_concept_uri]:
    [lang = lang.lower()], then
    [if lang in LCODE_ALIASES: lang = LCODE_ALIASES[lang]]. *)
Definition canonical_language (lang : string) : string :=
  let lang := Py.lower lang in
  match dict_get LCODE_ALIASES lang with
  | Some alias => alias
  | None => lang
  end.

(** ** Sets of language codes

    A Python set of strings is the list of its elements, each once; only
    membership and size are read from it. *)

Definition set_mem (x : string) (s : list string) : bool :=
  existsb (String.eqb x) s.

(** [a | b] *)
Definition set_union (a b : list string) : list string :=
  a ++ filter (fun x => negb (set_mem x a)) b.

(** No element is listed twice. *)
Fixpoint distinct (l : list string) : bool :=
  match l with
  | [] => true
  | x :: r => negb (set_mem x r) && distinct r
  end.

(** [LANGUAGES]: the six tiers, each with its codes in the order of the
    source. *)
Definition LANGUAGES : list (string * list string) :=
  [
    ("common",
     [ "en"; "fr"; "de"; "it"; "es"; "ru"; "pt"; "ja"; "zh"; "nl"; "fi";
       "pl"; "bg"; "sv"; "cs"; "sh"; "sl"; "ar"; "ca"; "hu"; "se"; "is";
       "ro"; "el"; "lv"; "ms"; "tr"; "da"; "ga"; "vi"; "ko"; "hy"; "gl";
       "oc"; "fo"; "gd"; "fa"; "ast"; "hsb"; "ka"; "he"; "no"; "sq"; "mg";
       "nrf"; "sk"; "lt"; "et"; "te"; "mk"; "nv"; "hi"; "af"; "gv"; "sa";
       "th"; "fil"; "eu"; "rup"; "uk"; "cy" ]);
    ("common-historical",
     [ "la"; "grc"; "xcl"; "fro"; "ang"; "non" ]);
    ("common-artificial",
     [ "mul"; "eo"; "io"; "vo" ]);
    ("more",
     [ "rm"; "br"; "lb"; "fy"; "ku"; "be"; "kk"; "frp"; "mi"; "sw"; "yi";
       "dsb"; "vec"; "ln"; "fur"; "pap"; "nds"; "mn"; "km"; "ba"; "os";
       "sco"; "lld"; "bn"; "mt"; "ady"; "az"; "qu"; "scn"; "haw"; "bm";
       "iu"; "lo"; "crh"; "ses"; "ta"; "tg"; "vep"; "wa"; "kw"; "co"; "tt";
       "ky"; "ceb"; "nan"; "dlm"; "mdf"; "stq"; "uz"; "pcd"; "my"; "zu";
       "sc"; "tk"; "ht"; "lad"; "arn"; "srn"; "ps"; "gu"; "kl"; "mr";
       "tpi"; "hil"; "kn"; "ne"; "wym"; "ug"; "nap"; "oj"; "mwl"; "frr";
       "an"; "yua"; "cv"; "bo"; "zdj"; "chr"; "sah"; "pal"; "ce"; "wo";
       "li"; "ml"; "egl"; "csb"; "ist"; "lkt"; "pi"; "kbd"; "twf"; "jv";
       "fon"; "nah"; "pa"; "myv"; "nmn"; "rom"; "ltg"; "ee"; "sm"; "am";
       "kum"; "krc"; "gsw"; "dak"; "swb"; "bal"; "si"; "so"; "su"; "kjh";
       "cic"; "gag"; "nog"; "chk"; "ha"; "tyv"; "nhn"; "zza"; "oma"; "vot";
       "krl"; "rw"; "aa"; "or"; "alt"; "esu"; "ccc"; "ab"; "ppl"; "chl";
       "ain"; "na"; "ty"; "wau"; "dua"; "rap"; "adx"; "cjs"; "tet"; "kim";
       "hak"; "lij"; "gn"; "tpw"; "sms"; "xmf"; "smn"; "raj"; "cim"; "rue";
       "hke"; "fj"; "pms"; "wae"; "yo"; "mh"; "szl"; "pjt"; "khb"; "dv";
       "udm"; "dje"; "ilo"; "aii"; "koy"; "war"; "lmo"; "ti"; "av"; "mch";
       "abe"; "cho"; "xwo"; "za"; "ki"; "lzz"; "sd"; "st"; "shh"; "bi";
       "ch"; "akz"; "ff" ]);
    ("more-historical",
     [ "syc"; "cu"; "goh"; "frm"; "enm"; "sga"; "pro"; "osx"; "got"; "hbo";
       "nci"; "arc"; "sux"; "ota"; "dum"; "gml"; "gmh"; "ofs"; "osp";
       "roa-opt"; "prg"; "liv"; "egx"; "akk"; "odt"; "oge"; "frk"; "axm";
       "txb"; "orv"; "xto"; "peo"; "ae"; "xno"; "uga"; "mga"; "egy"; "xpr";
       "cop"; "hit" ]);
    ("more-artificial",
     [ "jbo"; "ia"; "nov"; "ie"; "qya" ])
  ].

(** [LANGUAGES[key]].  The module indexes [LANGUAGES] with the six keys of
    the literal only; a key that is not there (a [KeyError] while the
    module loads) is read as the empty set. *)
Definition tier (key : string) : list string :=
  match find (fun item => String.eqb key (fst item)) LANGUAGES with
  | Some item => snd item
  | None => []
  end.

Definition COMMON_LANGUAGES : list string :=
  set_union (set_union (tier "common") (tier "common-historical"))
            (tier "common-artificial").

Definition ALL_LANGUAGES : list string :=
  set_union (set_union (set_union COMMON_LANGUAGES (tier "more"))
                       (tier "more-historical"))
            (tier "more-artificial").

Definition HISTORICAL_LANGUAGES : list string :=
  set_union (tier "common-historical") (tier "more-historical").

Definition CORE_LANGUAGES : list string :=
  ["en"; "fr"; "de"; "it"; "es"; "ru"; "pt"; "ja"; "zh"; "nl"].

Definition LANGUAGE_NAME_OVERRIDES : list (string * string) :=
  [("sh", "Serbo-Croatian")].

(** ** The imported collaborators

    [nodes.py] imports a tokenizer, the English token filter and three URI
    utilities from sibling modules.  The functions of [nodes.py] are
    embedded over any implementation of them. *)

Class Imports : Type := {
  (** [conceptnet5.language.token_utils.simple_tokenize] *)
  simple_tokenize : string -> list string;
  (** [conceptnet5.language.english.english_filter] *)
  english_filter : list string -> list string;
  (** [conceptnet5.uri.concept_uri(lang, text, *more)] *)
  concept_uri : string -> string -> list string -> string;
  (** [conceptnet5.uri.split_uri] *)
  split_uri : string -> list string;
  (** [conceptnet5.uri.parse_possible_compound_uri(op, uri)] *)
  parse_possible_compound_uri : string -> string -> list string
}.

(** ** The functions of [nodes.py] *)

Section Nodes.

Context {imports : Imports}.

(** [standardize_text(text, token_filter=None)] *)
Definition standardize_text (text : string)
    (token_filter : option (list string -> list string)) : string :=
  let tokens := simple_tokenize (Py.replace "_" " " text) in
  let tokens := match token_filter with
                | Some f => f tokens
                | None => tokens
                end in
  Py.join "_" tokens.

(** The token filter [standardized_concept_uri] selects: the test
    [lang == 'en'] is on the language code as passed in, before it is
    lowercased and resolved through [LCODE_ALIASES]. *)
Definition select_filter (lang : string) : option (list string -> list string) :=
  if String.eqb lang "en" then Some english_filter else None.

(** The list comprehension
    [[standardize_text(item, token_filter) for item in more if item is not None]]. *)
Fixpoint standardize_more (token_filter : option (list string -> list string))
    (more : list (option string)) : list string :=
  match more with
  | [] => []
  | None :: more' => standardize_more token_filter more'
  | Some item :: more' =>
      standardize_text item token_filter :: standardize_more token_filter more'
  end.

(** [standardized_concept_uri(lang, text, *more)]; an item of [more] is a
    string or [None]. *)
Definition standardized_concept_uri (lang text : string)
    (more : list (option string)) : string :=
  let token_filter := select_filter lang in
  let lang := canonical_language lang in
  let norm_text := standardize_text text token_filter in
  let more_text := standardize_more token_filter more in
  concept_uri lang norm_text more_text.

Definition normalized_concept_uri := standardized_concept_uri.
Definition standardize_concept_uri := standardized_concept_uri.

(** [standardized_concept_name(lang, text)]: the body is a single [raise]. *)
Definition standardized_concept_name (lang text : string) : result string :=
  Raise (NotImplementedError
    "standardized_concept_name has been removed. Use standardize_text instead.").

Definition normalized_concept_name := standardized_concept_name.

(** [get_uri_language(uri)].  [depth] is the number of stack frames the
    interpreter still grants: the call that finds none left raises
    [RecursionError], as CPython does at its recursion limit. *)
Fixpoint get_uri_language (depth : nat) (uri : string) : result (option string) :=
  match depth with
  | O => Raise RecursionError
  | S depth' =>
      if Py.startswith "/a/" uri then
        first <- list_index (parse_possible_compound_uri "a" uri) 0 ;;
        get_uri_language depth' first
      else if Py.startswith "/c/" uri then
        lang <- list_index (split_uri uri) 1 ;;
        Ok (Some lang)
      else Ok None
  end.

(** [valid_concept_name(text)] *)
Definition valid_concept_name (text : string) : bool :=
  Py.truthy (standardize_text text None).

(** [first_component n uri target]: following the first component of
    [n] nested assertions from [uri] ends at [target], which is no
    assertion. *)
Inductive first_component : nat -> string -> string -> Prop :=
| first_component_here (uri : string) :
    Py.startswith "/a/" uri = false -> first_component 0 uri uri
| first_component_inside (n : nat) (uri first target : string)
    (others : list string) :
    Py.startswith "/a/" uri = true ->
    parse_possible_compound_uri "a" uri = first :: others ->
    first_component n first target ->
    first_component (S n) uri target.


(** [topic_to_concept(language, topic)] *)
Definition topic_to_concept (language topic : string) : string :=
  let topic := Py.replace "_" " " topic in
  match Re.match_title topic with
  | None => standardized_concept_uri language topic []
  | Some (group1, group2) =>
      standardized_concept_uri language group1 [Some "n"; Some "wp"; Some group2]
  end.

End Nodes.

(** ** The collaborators as the specification describes them *)

Module SpecModel.

(** A character that belongs to a word: an ASCII letter or digit.  ASCII
    white space, control characters and punctuation, the underscore and
    the slash among them, separate words.  A byte above 127 (part of the
    UTF-8 encoding of a character outside ASCII) is kept inside the word
    it occurs in: see [simple_tokenize]. *)
Definition is_word_char (c : ascii) : bool :=
  let n := N_of_ascii c in
  (((48 <=? n) && (n <=? 57)) || ((65 <=? n) && (n <=? 90))
   || ((97 <=? n) && (n <=? 122)) || (128 <=? n))%N.

Definition push_word (w : string) (tokens : list string) : list string :=
  match w with
  | EmptyString => tokens
  | String _ _ => w :: tokens
  end.

(** The word that starts at the head of [s] (empty when [s] starts with a
    separator), lowercased, and the tokens after it. *)
Fixpoint scan_words (s : string) : string * list string :=
  match s with
  | EmptyString => (EmptyString, [])
  | String c r =>
      let (w, tokens) := scan_words r in
      if is_word_char c then (String (Py.lower_char c) w, tokens)
      else (EmptyString, push_word w tokens)
  end.

(** Modelled from the spec: [conceptnet5.language.token_utils.simple_tokenize]
    is not among the sources; the model covers ASCII text only.  The spec asks for "a finite ordered sequence of lowercase
    word tokens from arbitrary text, ... splitting on whitespace/punctuation
    boundaries", with punctuation-only fragments dropped: on ASCII text the
    tokens are the maximal runs of letters and digits, lowercased, in
    order, which is what the ASCII doctests of [standardize_text] show.
    The tokenizer of the spec also lowercases and separates text outside
    ASCII, and the doctest at lines 479-480 shows it composing a combining
    mark with its letter; the model does none of that (it copies bytes
    above 127 into the word they occur in), so nothing is stated of it on
    text outside ASCII: it only evaluates the ASCII examples below. *)
Definition simple_tokenize (text : string) : list string :=
  let (w, tokens) := scan_words text in push_word w tokens.

Definition is_article (token : string) : bool :=
  existsb (String.eqb token) ["a"; "an"; "the"].

Fixpoint drop_leading_to (tokens : list string) : list string :=
  match tokens with
  | [] => []
  | token :: rest =>
      if String.eqb token "to" then drop_leading_to rest else tokens
  end.

(** Modelled from the spec: [conceptnet5.language.english.english_filter]
    is not among the sources.  The spec describes a pure function on token
    sequences "removing function words and grammatical articles, or
    lemmatizing verbs"; the doctests of [nodes.py] fix it on "a big dog"
    ([big_dog]), "to go" ([go]) and "this is a test" ([this_is_test]).
    The model drops the articles and a leading infinitive marker. *)
Definition english_filter (tokens : list string) : list string :=
  drop_leading_to (filter (fun token => negb (is_article token)) tokens).

(** Modelled from the spec: [conceptnet5.uri.concept_uri] is not among the
    sources.  The spec: "a path-shaped identifier assembled from the
    literal concept marker, canonical language, and the standardized
    segments, each as one path component", slash-separated. *)
Definition concept_uri (lang text : string) (more : list string) : string :=
  "/" ++ Py.join "/" ("c" :: lang :: text :: more).

(** Modelled from the spec: [conceptnet5.uri.split_uri] is not among the
    sources.  The spec: [split(uri) -> segments], the inverse of the
    slash-separated construction: the segments after the leading slash. *)
Definition split_uri (uri : string) : list string :=
  Py.split "/" (Py.lstrip "/" uri).

(** Modelled from the spec: [conceptnet5.uri.parse_possible_compound_uri]
    is not among the sources.  The spec gives [parse_compound(kind, uri) ->
    list_of_sub_uris] and no syntax of compounds, so the model recognises
    no compound and reports no sub-URI.  It only closes the examples below,
    which build and read concept identifiers and never reach it; what is
    proved of assertions is proved for every parser. *)
Definition no_components (op uri : string) : list string := [].

End SpecModel.

(** The modelled collaborators around any parser of compound identifiers. *)
Definition spec_imports (parse : string -> string -> list string) : Imports :=
  {| simple_tokenize := SpecModel.simple_tokenize;
     english_filter := SpecModel.english_filter;
     concept_uri := SpecModel.concept_uri;
     split_uri := SpecModel.split_uri;
     parse_possible_compound_uri := parse |}.

Definition spec_model : Imports := spec_imports SpecModel.no_components.

(** ** The properties in the specification's words *)

(** The shape the Topic Converter looks for at the start of a title: one or
    more characters other than ["("], a space, ["("], one or more
    characters other than [")"], [")"], and anything after. *)
Definition title_shape (topic before inside trailing : string) : Prop :=
  topic = before ++ " (" ++ inside ++ ")" ++ trailing
  /\ before <> "" /\ Py.contains "(" before = false
  /\ inside <> "" /\ Py.contains ")" inside = false.

(** The qualifiers that are not [None], in their order. *)
Fixpoint present (more : list (option string)) : list string :=
  match more with
  | [] => []
  | None :: more' => present more'
  | Some item :: more' => item :: present more'
  end.

(** The check behind [aliases_settled]: the value of an item of
    [LCODE_ALIASES] is lowercase and is not a key. *)
Definition alias_settled (item : string * string) : bool :=
  String.eqb (Py.lower (snd item)) (snd item)
  && match dict_get LCODE_ALIASES (snd item) with
     | None => true
     | Some _ => false
     end.

(** * Proofs *)

(** ** The doctests of [nodes.py], run on the modelled collaborators *)

Example doctests_standardize_text :
  @standardize_text spec_model " cat" None = "cat"
  /\ @standardize_text spec_model "a big dog" (Some SpecModel.english_filter) = "big_dog"
  /\ @standardize_text spec_model "Italian supercat" None = "italian_supercat"
  /\ @standardize_text spec_model "a big dog" None = "a_big_dog"
  /\ @standardize_text spec_model "to go" (Some SpecModel.english_filter) = "go"
  /\ @standardize_text spec_model "Test?!" None = "test"
  /\ @standardize_text spec_model "TEST." None = "test"
  /\ @standardize_text spec_model "test/test" None = "test_test"
  /\ @standardize_text spec_model ("embedded" ++ String (ascii_of_nat 9) "tab") None
     = "embedded_tab"
  /\ @standardize_text spec_model "_" None = ""
  /\ @standardize_text spec_model "," None = "".
Proof. repeat split; vm_compute; reflexivity. Qed.

Example doctests_standardized_concept_uri :
  @standardized_concept_uri spec_model "en" "this is a test" [] = "/c/en/this_is_test"
  /\ @standardized_concept_uri spec_model "en" "this is a test"
       [Some "n"; Some "example phrase"]
     = "/c/en/this_is_test/n/example_phrase".
Proof. repeat split; vm_compute; reflexivity. Qed.

(** ** Characters and strings *)

Ltac by_cases_on_char c :=
  destruct c as [[] [] [] [] [] [] [] []]; try reflexivity; try discriminate.

Lemma lower_char_idempotent (c : ascii) :
  Py.lower_char (Py.lower_char c) = Py.lower_char c.
Proof. by_cases_on_char c. Qed.

Lemma lower_idempotent (s : string) : Py.lower (Py.lower s) = Py.lower s.
Proof.
  induction s as [|c r IH]; simpl.
  - reflexivity.
  - now rewrite lower_char_idempotent, IH.
Qed.

(** ** The alias table *)

Lemma dict_get_In (d : list (string * string)) (key value : string) :
  dict_get d key = Some value -> In (key, value) d.
Proof.
  induction d as [|[k v] d IH]; simpl.
  - discriminate.
  - destruct (String.eqb_spec key k) as [->|_].
    + intros [= ->]. now left.
    + intros H. right. now apply IH.
Qed.

Lemma aliases_settled : forallb alias_settled LCODE_ALIASES = true.
Proof. vm_compute. reflexivity. Qed.

Lemma alias_value_settled (key value : string) :
  In (key, value) LCODE_ALIASES ->
  Py.lower value = value /\ dict_get LCODE_ALIASES value = None.
Proof.
  intros Hin.
  pose proof (proj1 (forallb_forall _ _) aliases_settled _ Hin) as H.
  unfold alias_settled in H; cbn [snd] in H.
  apply andb_true_iff in H as [Hlow Hkey].
  split.
  - now apply String.eqb_eq.
  - destruct (dict_get LCODE_ALIASES value); [discriminate | reflexivity].
Qed.

(** C4: canonicalising a language code (lowercase, then one look-up in
    [LCODE_ALIASES]) is idempotent, and every value of [LCODE_ALIASES] is
    lowercase and is not a key of the table. *)
Theorem canonical_language_idempotent :
  (forall code : string,
      canonical_language (canonical_language code) = canonical_language code)
  /\ Forall (fun item : string * string =>
               Py.lower (snd item) = snd item
               /\ dict_get LCODE_ALIASES (snd item) = None) LCODE_ALIASES.
Proof.
  split.
  - intros code. unfold canonical_language.
    destruct (dict_get LCODE_ALIASES (Py.lower code)) as [alias|] eqn:Hget.
    + apply dict_get_In in Hget.
      apply alias_value_settled in Hget as [Hlow Hkey].
      now rewrite Hlow, Hkey.
    + now rewrite lower_idempotent, Hget.
  - apply Forall_forall. intros [key value] Hin. simpl.
    now apply alias_value_settled with key.
Qed.

(** ** Dispatch on the shape of an identifier *)

Lemma startswith_iff (p s : string) :
  Py.startswith p s = true <-> exists r, s = p ++ r.
Proof.
  unfold Py.startswith. revert s.
  induction p as [|a p IH]; intros s.
  - split; [intros _; now exists s | intros _; now destruct s].
  - destruct s as [|b s]; simpl.
    + split; [discriminate | intros [r Hr]; discriminate].
    + destruct (ascii_dec a b) as [->|Hab].
      * rewrite IH. split; intros [r Hr]; exists r; congruence.
      * split; [discriminate | intros [r [= Hb _]]; congruence].
Qed.

Lemma concept_is_not_assertion (uri : string) :
  Py.startswith "/c/" uri = true -> Py.startswith "/a/" uri = false.
Proof.
  intros H. apply startswith_iff in H as [r ->]. reflexivity.
Qed.

Section Dispatch.

Context {imports : Imports}.

Lemma get_uri_language_assertion (depth : nat) (uri : string) :
  Py.startswith "/a/" uri = true ->
  get_uri_language (S depth) uri =
    (first <- list_index (parse_possible_compound_uri "a" uri) 0 ;;
     get_uri_language depth first).
Proof. intros H. simpl. now rewrite H. Qed.

Lemma get_uri_language_concept (depth : nat) (uri : string) :
  Py.startswith "/c/" uri = true ->
  get_uri_language (S depth) uri =
    (lang <- list_index (split_uri uri) 1 ;; Ok (Some lang)).
Proof.
  intros H. simpl. now rewrite (concept_is_not_assertion _ H), H.
Qed.

Lemma get_uri_language_other (depth : nat) (uri : string) :
  Py.startswith "/a/" uri = false ->
  Py.startswith "/c/" uri = false ->
  get_uri_language (S depth) uri = Ok None.
Proof. intros Ha Hc. simpl. now rewrite Ha, Hc. Qed.

(** A result other than [RecursionError] does not depend on how many more
    frames were left. *)
Lemma get_uri_language_more_depth (depth : nat) (uri : string) (r : result (option string)) :
  get_uri_language depth uri = r -> r <> Raise RecursionError ->
  forall extra : nat, get_uri_language (extra + depth) uri = r.
Proof.
  revert uri. induction depth as [|depth IH]; intros uri Hr Hne extra.
  - simpl in Hr. congruence.
  - rewrite Nat.add_succ_r. simpl in Hr |- *.
    destruct (Py.startswith "/a/" uri); [|exact Hr].
    destruct (list_index (parse_possible_compound_uri "a" uri) 0) as [first|e];
      simpl in Hr |- *; [|exact Hr].
    now apply IH.
Qed.

(** Through [n] nested assertions the language is that of the identifier
    at the end of the chain of first components, given [n] frames more
    than that identifier needs. *)
Lemma get_uri_language_nested (n : nat) (uri target : string) :
  first_component n uri target ->
  forall depth : nat,
    get_uri_language (n + S depth) uri = get_uri_language (S depth) target.
Proof.
  induction 1 as [uri Hnot | n uri first target others Ha Hparse _ IH];
    intros depth; [reflexivity|].
  change (S n + S depth) with (S (n + S depth)).
  rewrite get_uri_language_assertion by exact Ha.
  rewrite Hparse. simpl. apply IH.
Qed.

End Dispatch.

(** C8: an identifier that starts with ["/a/"] has the language of the
    first component [parse_possible_compound_uri] finds in it, computed by
    the recursive call; one that starts with ["/c/"] has the second segment
    of [split_uri] as it stands, without any canonicalisation. *)
Theorem get_uri_language_dispatch (imports : Imports) (depth : nat) (uri : string) :
  (Py.startswith "/a/" uri = true ->
     (forall first others,
         parse_possible_compound_uri "a" uri = first :: others ->
         get_uri_language (S depth) uri = get_uri_language depth first)
     /\ (parse_possible_compound_uri "a" uri = [] ->
         get_uri_language (S depth) uri = Raise IndexError))
  /\ (Py.startswith "/c/" uri = true ->
        (forall segment0 segment1 others,
            split_uri uri = segment0 :: segment1 :: others ->
            get_uri_language (S depth) uri = Ok (Some segment1))
        /\ (List.length (split_uri uri) < 2 ->
            get_uri_language (S depth) uri = Raise IndexError)).
Proof.
  split; intros Hstart.
  - rewrite get_uri_language_assertion by exact Hstart.
    split.
    + intros first others ->. reflexivity.
    + intros ->. reflexivity.
  - rewrite get_uri_language_concept by exact Hstart.
    split.
    + intros s0 s1 others ->. reflexivity.
    + intros Hlen. destruct (split_uri uri) as [|s0 [|s1 others]];
        simpl in Hlen; try lia; reflexivity.
Qed.

Lemma get_uri_language_dispatch_witness :
  @get_uri_language (spec_imports (fun _ _ => ["/c/en/cat"; "/c/en/animal"])) 2
    "/a/[/r/IsA/,/c/en/cat/,/c/en/animal/]"
  = Ok (Some "en")
  /\ @get_uri_language spec_model 1 "/c/ZH_tw/cat" = Ok (Some "ZH_tw").
Proof.
  split.
  - exact (proj1 (proj1 (get_uri_language_dispatch
                           (spec_imports (fun _ _ => ["/c/en/cat"; "/c/en/animal"]))
                           1 "/a/[/r/IsA/,/c/en/cat/,/c/en/animal/]") eq_refl)
             "/c/en/cat" ["/c/en/animal"] eq_refl).
  - exact (proj1 (proj2 (get_uri_language_dispatch spec_model 0 "/c/ZH_tw/cat") eq_refl)
             "c" "ZH_tw" ["cat"] eq_refl).
Defined.

(** C10: [standardized_concept_name], and [normalized_concept_name] which
    is the same function, raises [NotImplementedError] on every input,
    with a message that names [standardize_text] as the replacement; no
    input makes it return. *)
Theorem standardized_concept_name_raises (lang text : string) :
  exists msg : string,
    standardized_concept_name lang text = Raise (NotImplementedError msg)
    /\ normalized_concept_name lang text = Raise (NotImplementedError msg)
    /\ String.index 0 "Use standardize_text instead." msg <> None
    /\ forall value : string, standardized_concept_name lang text <> Ok value.
Proof.
  eexists. split; [reflexivity|]. split; [reflexivity|].
  split; [vm_compute; discriminate | intros value; discriminate].
Qed.

(** C7: [valid_concept_name] is true exactly when [standardize_text]
    without a token filter gives a non-empty string, whatever the
    tokenizer; with the modelled tokenizer it is false on [","], ["/"],
    [" "] and ["_"], and true on ["word"] and on the stopword ["the"]. *)
Theorem valid_concept_name_nonempty :
  (forall (imports : Imports) (text : string),
      valid_concept_name text = true <-> standardize_text text None <> "")
  /\ map (@valid_concept_name spec_model) [","; "/"; " "; "_"; "word"; "the"]
     = [false; false; false; false; true; true].
Proof.
  split.
  - intros imports text. unfold valid_concept_name.
    destruct (standardize_text text None); simpl.
    + split; [discriminate | congruence].
    + split; [discriminate | reflexivity].
  - vm_compute. reflexivity.
Qed.

(** ** Case analysis on a character *)

Ltac char_cases c :=
  destruct c as [[] [] [] [] [] [] [] []];
  first [reflexivity | discriminate | (intros; first [reflexivity | discriminate])].

Lemma append_assoc (a b c : string) : (a ++ b) ++ c = a ++ (b ++ c).
Proof. induction a as [|x a IH]; simpl; [reflexivity | now rewrite IH]. Qed.

(** ** Underscores *)

Lemma replace_idempotent (s : string) :
  Py.replace "_" " " (Py.replace "_" " " s) = Py.replace "_" " " s.
Proof.
  induction s as [|c r IH]; simpl; [reflexivity|]. rewrite IH.
  destruct (Ascii.eqb_spec c "_") as [->|Hc]; [reflexivity|].
  now destruct (Ascii.eqb_spec c "_").
Qed.

Lemma split_not_empty (sep : ascii) (s : string) : Py.split sep s <> [].
Proof.
  destruct s as [|c r]; simpl; [discriminate|].
  destruct (Ascii.eqb c sep); [discriminate|].
  destruct (Py.split sep r); discriminate.
Qed.

(** ** Paths: joining with slashes and splitting at them *)

Lemma split_first_piece (sep : ascii) (a b : string) :
  Py.contains sep a = false ->
  Py.split sep (a ++ String sep b) = a :: Py.split sep b.
Proof.
  induction a as [|c a IH]; simpl.
  - intros _. now rewrite Ascii.eqb_refl.
  - intros H. apply orb_false_iff in H as [Hc Ha].
    now rewrite Hc, (IH Ha).
Qed.

Lemma contains_first (sep : ascii) (s : string) :
  Py.contains sep s = true ->
  exists a b, s = a ++ String sep b /\ Py.contains sep a = false.
Proof.
  induction s as [|c r IH]; simpl; [discriminate|].
  destruct (Ascii.eqb_spec c sep) as [->|Hc]; simpl.
  - intros _. now exists "", r.
  - intros Hr. destruct (IH Hr) as (a & b & -> & Ha).
    exists (String c a), b. split; [reflexivity|]. simpl.
    destruct (Ascii.eqb_spec c sep); [contradiction | exact Ha].
Qed.

(** ** Language codes and slashes *)

Lemma lower_char_slash (c : ascii) :
  Ascii.eqb (Py.lower_char c) "/" = Ascii.eqb c "/".
Proof. char_cases c. Qed.

Lemma lower_contains_slash (s : string) :
  Py.contains "/" (Py.lower s) = Py.contains "/" s.
Proof.
  induction s as [|c r IH]; simpl; [reflexivity|].
  now rewrite lower_char_slash, IH.
Qed.

Lemma aliases_slash_free :
  forallb (fun item : string * string =>
             negb (Py.contains "/" (fst item)) && negb (Py.contains "/" (snd item)))
          LCODE_ALIASES = true.
Proof. vm_compute. reflexivity. Qed.

Lemma alias_slash_free (key value : string) :
  dict_get LCODE_ALIASES key = Some value ->
  Py.contains "/" key = false /\ Py.contains "/" value = false.
Proof.
  intros Hget. apply dict_get_In in Hget.
  pose proof (proj1 (forallb_forall _ _) aliases_slash_free _ Hget) as H.
  cbn [fst snd] in H. apply andb_true_iff in H as [Hk Hv].
  now rewrite negb_true_iff in Hk, Hv.
Qed.

Lemma canonical_language_slash (lang : string) :
  Py.contains "/" (canonical_language lang) = Py.contains "/" lang.
Proof.
  unfold canonical_language.
  destruct (dict_get LCODE_ALIASES (Py.lower lang)) as [alias|] eqn:Hget.
  - apply alias_slash_free in Hget as [Hk Hv].
    now rewrite Hv, <- lower_contains_slash, Hk.
  - apply lower_contains_slash.
Qed.

(** ** Building identifiers *)

Section Building.

Context {imports : Imports}.

Lemma standardize_more_present (token_filter : option (list string -> list string))
    (more : list (option string)) :
  standardize_more token_filter more
  = map (fun item => standardize_text item token_filter) (present more).
Proof.
  induction more as [|[item|] more IH]; simpl; [reflexivity | | exact IH].
  now rewrite IH.
Qed.

Lemma present_In (more : list (option string)) (item : string) :
  In item (present more) <-> In (Some item) more.
Proof.
  induction more as [|[q|] more IH]; simpl.
  - reflexivity.
  - rewrite IH. split; intros [H|H]; auto; left; congruence.
  - rewrite IH. split; [now right | intros [H|H]; [discriminate | exact H]].
Qed.

Lemma select_filter_not_en (lang : string) :
  lang <> "en" -> select_filter lang = None.
Proof.
  intros H. unfold select_filter.
  now destruct (String.eqb_spec lang "en").
Qed.

End Building.

Section OnTheModel.

Variable parse : string -> string -> list string.

#[local] Instance modelled_imports : Imports := spec_imports parse.

Lemma split_concept_uri (lang text : string) (more : list string) :
  split_uri (concept_uri lang text more)
  = "c" :: Py.split "/" (lang ++ String "/" (Py.join "/" (text :: more))).
Proof. reflexivity. Qed.

Lemma concept_uri_is_concept (lang text : string) (more : list string) :
  Py.startswith "/c/" (concept_uri lang text more) = true.
Proof. apply startswith_iff. eexists. reflexivity. Qed.

Lemma get_uri_language_concept_uri (depth : nat) (lang text : string)
    (more : list string) :
  get_uri_language (S depth) (concept_uri lang text more)
  = (segment <- list_index
       (Py.split "/" (lang ++ String "/" (Py.join "/" (text :: more)))) 0 ;;
     Ok (Some segment)).
Proof.
  rewrite get_uri_language_concept by apply concept_uri_is_concept.
  now rewrite split_concept_uri.
Qed.

Lemma language_read_back (depth : nat) (lang text : string)
    (more : list (option string)) :
  get_uri_language (S depth) (standardized_concept_uri lang text more)
  = Ok (Some (canonical_language lang))
  <-> Py.contains "/" lang = false.
Proof.
  unfold standardized_concept_uri.
  rewrite get_uri_language_concept_uri, <- (canonical_language_slash lang).
  destruct (Py.contains "/" (canonical_language lang)) eqn:Hslash.
  - split; [|discriminate].
    destruct (contains_first _ _ Hslash) as (a & b & Hcanon & Ha).
    rewrite Hcanon, append_assoc. simpl append.
    rewrite split_first_piece by exact Ha. simpl.
    intros [= Heq]. rewrite Hcanon, <- Heq in Hslash. congruence.
  - split; [reflexivity|]. intros _.
    now rewrite split_first_piece by exact Hslash.
Qed.

(** With the modelled [split_uri], every string that starts with ["/c/"]
    has a second segment: the branch never raises. *)
Lemma get_uri_language_concept_returns (depth : nat) (uri : string) :
  Py.startswith "/c/" uri = true ->
  exists segment, get_uri_language (S depth) uri = Ok (Some segment).
Proof.
  intros Hc. rewrite get_uri_language_concept by exact Hc.
  apply startswith_iff in Hc as [r ->].
  change (split_uri ("/c/" ++ r)) with ("c" :: Py.split "/" r).
  pose proof (split_not_empty "/" r) as Hne.
  destruct (Py.split "/" r) as [|segment segments]; [congruence|].
  now exists segment.
Qed.

End OnTheModel.

(** ** The title pattern *)

Lemma contains_append (c : ascii) (a b : string) :
  Py.contains c (a ++ b) = Py.contains c a || Py.contains c b.
Proof.
  induction a as [|x a IH]; simpl; [reflexivity|].
  now rewrite IH, orb_assoc.
Qed.

Lemma span_not_stops (c : ascii) (a b : string) :
  Py.contains c a = false ->
  Re.span_not c (a ++ String c b) = (a, String c b).
Proof.
  induction a as [|x a IH]; simpl.
  - intros _. now rewrite Ascii.eqb_refl.
  - intros H. apply orb_false_iff in H as [Hx Ha].
    now rewrite Hx, (IH Ha).
Qed.

Lemma span_not_inv (c : ascii) (s run rest : string) :
  Re.span_not c s = (run, rest) ->
  s = run ++ rest /\ Py.contains c run = false
  /\ (rest = "" \/ exists r, rest = String c r).
Proof.
  revert run rest. induction s as [|x s IH]; simpl; intros run rest.
  - intros [= <- <-]. auto.
  - destruct (Ascii.eqb_spec x c) as [->|Hx].
    + intros [= <- <-]. repeat split. right. now exists s.
    + destruct (Re.span_not c s) as [run' rest'] eqn:Hspan.
      intros [= <- <-]. destruct (IH _ _ eq_refl) as (-> & Hrun & Hrest).
      repeat split; [|exact Hrest]. simpl.
      destruct (Ascii.eqb_spec x c); [contradiction | exact Hrun].
Qed.

Lemma chop_last_append (s : string) (x : ascii) :
  Re.chop_last (s ++ String x "") = Some (s, x).
Proof. induction s as [|a s IH]; simpl; [reflexivity | now rewrite IH]. Qed.

Lemma chop_last_inv (s init : string) (last : ascii) :
  Re.chop_last s = Some (init, last) -> s = init ++ String last "".
Proof.
  revert init. induction s as [|a s IH]; simpl; intros init; [discriminate|].
  destruct (Re.chop_last s) as [[init' last']|] eqn:Hchop.
  - intros [= <- <-]. simpl. now rewrite (IH _ eq_refl).
  - intros [= <- <-]. destruct s as [|b s]; [reflexivity|].
    simpl in Hchop. now destruct (Re.chop_last s) as [[? ?]|].
Qed.

(** The matcher finds every title of the shape, with these groups ... *)
Lemma match_title_complete (topic before inside trailing : string) :
  title_shape topic before inside trailing ->
  Re.match_title topic = Some (before, inside).
Proof.
  intros (-> & Hbefore & Hopen & Hinside & Hclose).
  unfold Re.match_title.
  change (before ++ " (" ++ inside ++ ")" ++ trailing)
    with (before ++ String " " (String "(" (inside ++ String ")" trailing))).
  replace (before ++ String " " (String "(" (inside ++ String ")" trailing)))
    with ((before ++ String " " "") ++ String "(" (inside ++ String ")" trailing))
    by now rewrite append_assoc.
  rewrite span_not_stops by (rewrite contains_append, Hopen; reflexivity).
  rewrite chop_last_append.
  destruct before as [|a before]; [congruence|].
  rewrite span_not_stops by exact Hclose.
  destruct inside as [|b inside]; [congruence | reflexivity].
Qed.

(** ... and nothing else. *)
Lemma match_title_sound (topic before inside : string) :
  Re.match_title topic = Some (before, inside) ->
  exists trailing, title_shape topic before inside trailing.
Proof.
  unfold Re.match_title.
  destruct (Re.span_not "(" topic) as [run1 after1] eqn:Hspan1.
  destruct (Re.chop_last run1) as [[group1 last]|] eqn:Hchop; [|discriminate].
  destruct group1 as [|a g]; [discriminate|].
  destruct (Ascii.eqb_spec last " ") as [->|Hlast];
    [|by_cases_on_char last; contradiction].
  destruct after1 as [|open after_open]; [discriminate|].
  destruct (Ascii.eqb_spec open "(") as [->|Hopen];
    [|by_cases_on_char open; contradiction].
  destruct (Re.span_not ")" after_open) as [group2 after2] eqn:Hspan2.
  destruct group2 as [|b g2]; [discriminate|].
  destruct after2 as [|close trailing]; [discriminate|].
  destruct (Ascii.eqb_spec close ")") as [->|Hclose];
    [|by_cases_on_char close; contradiction].
  intros [= <- <-]. exists trailing.
  apply span_not_inv in Hspan1 as (-> & Hrun1 & _).
  apply span_not_inv in Hspan2 as (-> & Hrun2 & _).
  apply chop_last_inv in Hchop as ->.
  rewrite contains_append in Hrun1. apply orb_false_iff in Hrun1 as [Hg1 _].
  repeat split; try discriminate; try assumption.
  now rewrite append_assoc.
Qed.

Lemma match_title_none (topic : string) :
  (forall before inside trailing, ~ title_shape topic before inside trailing) ->
  Re.match_title topic = None.
Proof.
  intros Hnone. destruct (Re.match_title topic) as [[before inside]|] eqn:Hm;
    [|reflexivity].
  destruct (match_title_sound _ _ _ Hm) as [trailing Hshape].
  now destruct (Hnone _ _ _ Hshape).
Qed.

Lemma standardize_text_replaced {imports : Imports} (text : string)
    (token_filter : option (list string -> list string)) :
  standardize_text (Py.replace "_" " " text) token_filter
  = standardize_text text token_filter.
Proof. unfold standardize_text. now rewrite replace_idempotent. Qed.

(** C5: [topic_to_concept] turns underscores into spaces and looks for the
    title shape at the start of the result.  When the shape is there, the
    concept is built from the part before the parenthesis with the
    qualifiers ["n"], ["wp"] and the text inside the parentheses, and what
    trails the closing parenthesis is dropped; when it is not, the concept
    is built from the topic alone.  With the modelled collaborators,
    "Township (United States)" in English is
    [/c/en/township/n/wp/united_states]. *)
Theorem topic_to_concept_title :
  (forall (imports : Imports) (language topic : string),
      let title := Py.replace "_" " " topic in
      (forall before inside trailing,
          title_shape title before inside trailing ->
          topic_to_concept language topic
          = standardized_concept_uri language before
              [Some "n"; Some "wp"; Some inside])
      /\ ((forall before inside trailing,
              ~ title_shape title before inside trailing) ->
          topic_to_concept language topic
          = standardized_concept_uri language topic []))
  /\ @topic_to_concept spec_model "en" "Township (United States)"
     = "/c/en/township/n/wp/united_states".
Proof.
  split; [|vm_compute; reflexivity].
  intros imports language topic title. unfold topic_to_concept. fold title.
  split.
  - intros before inside trailing Hshape.
    now rewrite (match_title_complete _ _ _ _ Hshape).
  - intros Hnone. rewrite (match_title_none _ Hnone).
    unfold standardized_concept_uri, title.
    now rewrite standardize_text_replaced.
Qed.

Lemma topic_to_concept_title_witness :
  @topic_to_concept spec_model "en" "Township_(United_States), Ohio"
  = @standardized_concept_uri spec_model "en" "Township"
      [Some "n"; Some "wp"; Some "United States"]
  /\ @topic_to_concept spec_model "en" "Italian_supercat"
     = @standardized_concept_uri spec_model "en" "Italian_supercat" [].
Proof.
  split.
  - apply (proj1 (proj1 topic_to_concept_title spec_model "en"
                    "Township_(United_States), Ohio")
             "Township" "United States" ", Ohio").
    repeat split; (reflexivity || discriminate).
  - apply (proj2 (proj1 topic_to_concept_title spec_model "en" "Italian_supercat")).
    intros before inside trailing Hshape.
    apply match_title_complete in Hshape. discriminate Hshape.
Defined.

(** C2, amended: with the modelled URI utilities, [get_uri_language] reads
    back from [standardized_concept_uri(lang, text, ...)] the canonical
    form of [lang] exactly when [lang] contains no slash. *)
Theorem language_roundtrip (parse : string -> string -> list string)
    (depth : nat) (lang text : string) (more : list (option string)) :
  @get_uri_language (spec_imports parse) (S depth)
    (@standardized_concept_uri (spec_imports parse) lang text more)
  = Ok (Some (canonical_language lang))
  <-> Py.contains "/" lang = false.
Proof. apply language_read_back. Qed.

Lemma language_roundtrip_witness :
  @get_uri_language spec_model 1
    (@standardized_concept_uri spec_model "ZH_tw" "Cat" [Some "n"])
  = Ok (Some "zh").
Proof.
  exact (proj2 (language_roundtrip SpecModel.no_components 0
                  "ZH_tw" "Cat" [Some "n"]) eq_refl).
Defined.

(** C2 as stated fails on a language code with a slash in it: the
    identifier built for ["a/b"] reads back as ["a"]. *)
Lemma language_roundtrip_lost_at_slash :
  @get_uri_language spec_model 1 (@standardized_concept_uri spec_model "a/b" "x" [])
  = Ok (Some "a")
  /\ canonical_language "a/b" = "a/b"
  /\ @get_uri_language spec_model 1 (@standardized_concept_uri spec_model "a/b" "x" [])
     <> Ok (Some (canonical_language "a/b")).
Proof. repeat split; [vm_compute; reflexivity .. | vm_compute; discriminate]. Qed.

(** Whatever the collaborators, a language code other than the literal
    ["en"] gets no token filter, also when its canonical form is ["en"]. *)
Lemma unfiltered_unless_literally_en {imports : Imports} (lang text : string)
    (more : list (option string)) :
  lang <> "en" ->
  standardized_concept_uri lang text more
  = concept_uri (canonical_language lang) (standardize_text text None)
      (map (fun item => standardize_text item None) (present more)).
Proof.
  intros Hlang. unfold standardized_concept_uri.
  now rewrite standardize_more_present, select_filter_not_en.
Qed.

(** C1, at the input where the code departs from it: ["EN"] canonicalises
    to ["en"], but the filter was chosen on ["EN"], so the article stays.
    The specification's own example, "Cat" under ["EN"] and "cat" under
    ["en"], has no token for the filter to drop and does not show it. *)
Theorem filter_chosen_on_raw_code :
  canonical_language "EN" = "en"
  /\ @standardized_concept_uri spec_model "EN" "a big dog" [] = "/c/en/a_big_dog"
  /\ @standardized_concept_uri spec_model "en" "a big dog" [] = "/c/en/big_dog"
  /\ @standardized_concept_uri spec_model "EN" "Cat" []
     = @standardized_concept_uri spec_model "en" "cat" [].
Proof. repeat split; vm_compute; reflexivity. Qed.

(** * The rest of the module *)

(** ** Sets and dictionaries *)

Lemma set_mem_In (x : string) (s : list string) :
  set_mem x s = true <-> In x s.
Proof.
  unfold set_mem. rewrite existsb_exists. split.
  - intros (y & Hy & Heq). apply String.eqb_eq in Heq. now subst.
  - intros Hx. exists x. split; [exact Hx | apply String.eqb_refl].
Qed.

Lemma set_mem_app (x : string) (a b : list string) :
  set_mem x (a ++ b) = set_mem x a || set_mem x b.
Proof. unfold set_mem. apply existsb_app. Qed.

Lemma set_mem_union (x : string) (a b : list string) :
  set_mem x (set_union a b) = set_mem x a || set_mem x b.
Proof.
  unfold set_union. rewrite set_mem_app.
  destruct (set_mem x a) eqn:Ha; [reflexivity|]. simpl.
  destruct (set_mem x b) eqn:Hb.
  - apply set_mem_In. apply filter_In. split; [now apply set_mem_In|].
    now rewrite Ha.
  - destruct (set_mem x (filter _ b)) eqn:Hf; [|reflexivity].
    apply set_mem_In, filter_In in Hf as [Hin _].
    apply set_mem_In in Hin. congruence.
Qed.

Lemma distinct_NoDup (l : list string) : distinct l = true -> NoDup l.
Proof.
  induction l as [|x r IH]; simpl; [constructor|].
  intros H. apply andb_true_iff in H as [Hx Hr].
  constructor; [|now apply IH].
  intros Hin. apply set_mem_In in Hin. now rewrite Hin in Hx.
Qed.

Lemma forallb_set_mem (p : string -> bool) (s : list string) (x : string) :
  forallb p s = true -> set_mem x s = true -> p x = true.
Proof.
  intros Hall Hx. apply set_mem_In in Hx.
  exact (proj1 (forallb_forall p s) Hall x Hx).
Qed.

Lemma dict_get_key (d : list (string * string)) (key : string) :
  set_mem key (map fst d) = true -> exists value, dict_get d key = Some value.
Proof.
  induction d as [|[k v] d IH]; simpl; [discriminate|].
  destruct (String.eqb_spec key k) as [->|Hne]; simpl.
  - intros _. now exists v.
  - exact IH.
Qed.

(** With distinct keys, every item of the literal is the one its key finds. *)
Lemma dict_get_item (d : list (string * string)) (key value : string) :
  distinct (map fst d) = true -> In (key, value) d -> dict_get d key = Some value.
Proof.
  induction d as [|[k v] d IH]; simpl; [tauto|].
  intros Hd Hin. apply andb_true_iff in Hd as [Hk Hd].
  destruct (String.eqb_spec key k) as [->|Hne].
  - destruct Hin as [[= ->]|Hin]; [reflexivity|].
    assert (Hmem : set_mem k (map fst d) = true).
    { apply set_mem_In. change k with (fst (k, value)). now apply in_map. }
    now rewrite Hmem in Hk.
  - destruct Hin as [[= -> _]|Hin]; [contradiction | now apply IH].
Qed.

Lemma alias_keys_distinct : distinct (map fst LCODE_ALIASES) = true.
Proof. vm_compute. reflexivity. Qed.

(** ** Language codes through the alias table *)

Lemma canonical_language_twice (code : string) :
  canonical_language (canonical_language code) = canonical_language code.
Proof.
  unfold canonical_language.
  destruct (dict_get LCODE_ALIASES (Py.lower code)) as [alias|] eqn:Hget.
  - apply dict_get_In in Hget.
    apply alias_value_settled in Hget as [Hlow Hkey].
    now rewrite Hlow, Hkey.
  - now rewrite lower_idempotent, Hget.
Qed.

Lemma canonical_language_lowercase (code : string) :
  Py.lower (canonical_language code) = canonical_language code.
Proof.
  unfold canonical_language.
  destruct (dict_get LCODE_ALIASES (Py.lower code)) as [alias|] eqn:Hget.
  - apply dict_get_In in Hget. now apply alias_value_settled in Hget.
  - apply lower_idempotent.
Qed.

(** X8: the canonical form of a code does not depend on its letter case,
    and is itself lowercase. *)
Theorem canonical_language_case (code1 code2 : string) :
  Py.lower code1 = Py.lower code2 ->
  canonical_language code1 = canonical_language code2
  /\ Py.lower (canonical_language code1) = canonical_language code1.
Proof.
  intros Hcase. split; [|apply canonical_language_lowercase].
  unfold canonical_language. now rewrite Hcase.
Qed.

Lemma canonical_language_case_witness :
  canonical_language "Sr-Latn" = canonical_language "SR-LATN"
  /\ Py.lower (canonical_language "Sr-Latn") = canonical_language "Sr-Latn".
Proof. exact (canonical_language_case "Sr-Latn" "SR-LATN" eq_refl). Defined.

(** X9: every item of [LCODE_ALIASES] takes effect, whatever the letter
    case of the code passed in: a code that lowercases to the key of an
    item canonicalises to the value of that item. *)
Theorem alias_resolves (key value code : string) :
  In (key, value) LCODE_ALIASES ->
  Py.lower code = key ->
  canonical_language code = value.
Proof.
  intros Hitem Hcode. unfold canonical_language. rewrite Hcode.
  now rewrite (dict_get_item LCODE_ALIASES key value alias_keys_distinct Hitem).
Qed.

Lemma alias_resolves_witness : canonical_language "NB" = "no".
Proof.
  apply (alias_resolves "nb" "no" "NB"); [|reflexivity].
  unfold LCODE_ALIASES. do 11 right. left. reflexivity.
Defined.

Lemma no_alias_for_english :
  forallb (fun item : string * string => negb (String.eqb (snd item) "en"))
          LCODE_ALIASES = true.
Proof. vm_compute. reflexivity. Qed.

(** On the codes below the literal test [lang == 'en'] and the test on
    the canonical code agree. *)
Lemma literally_en_iff_canonically (lang : string) :
  Py.lower lang = lang \/ canonical_language lang <> "en" ->
  (lang = "en" <-> canonical_language lang = "en").
Proof.
  intros Hlang. split; [intros ->; reflexivity|].
  intros Hcanon. destruct Hlang as [Hlow|Hne]; [|contradiction].
  unfold canonical_language in Hcanon. rewrite Hlow in Hcanon.
  destruct (dict_get LCODE_ALIASES lang) as [alias|] eqn:Hget; [|exact Hcanon].
  apply dict_get_In in Hget.
  pose proof (proj1 (forallb_forall _ _) no_alias_for_english _ Hget) as H.
  cbn [snd] in H. rewrite Hcanon in H. discriminate H.
Qed.

(** ** The supported languages *)

Lemma supported_are_fixed :
  forallb (fun l => String.eqb (canonical_language l) l) ALL_LANGUAGES = true.
Proof. vm_compute. reflexivity. Qed.

Lemma alias_targets_supported :
  forallb (fun item : string * string => set_mem (snd item) ALL_LANGUAGES)
          LCODE_ALIASES = true.
Proof. vm_compute. reflexivity. Qed.

Lemma supported_slash_free :
  forallb (fun l => negb (Py.contains "/" l)) ALL_LANGUAGES = true.
Proof. vm_compute. reflexivity. Qed.

Lemma supported_language_fixed (l : string) :
  set_mem l ALL_LANGUAGES = true -> canonical_language l = l.
Proof.
  intros Hl. apply String.eqb_eq.
  exact (forallb_set_mem _ _ _ supported_are_fixed Hl).
Qed.

(** X10: canonicalisation maps the registry into the supported languages:
    a code that lowercases to a supported language or to a key of
    [LCODE_ALIASES] has a supported canonical form, and a supported
    language is its own canonical form (so no supported language is
    redirected by the alias table). *)
Theorem canonical_language_supported (code : string) :
  set_mem (Py.lower code) ALL_LANGUAGES = true
  \/ set_mem (Py.lower code) (map fst LCODE_ALIASES) = true ->
  set_mem (canonical_language code) ALL_LANGUAGES = true
  /\ (set_mem code ALL_LANGUAGES = true -> canonical_language code = code).
Proof.
  intros Hcode. split; [|apply supported_language_fixed].
  destruct Hcode as [Hsupported|Hkey].
  - pose proof (supported_language_fixed _ Hsupported) as Hfixed.
    unfold canonical_language in *. rewrite lower_idempotent in Hfixed.
    now rewrite Hfixed.
  - destruct (dict_get_key LCODE_ALIASES _ Hkey) as [alias Hget].
    unfold canonical_language. rewrite Hget.
    apply dict_get_In in Hget.
    exact (proj1 (forallb_forall _ _) alias_targets_supported _ Hget).
Qed.

Lemma canonical_language_supported_witness :
  (set_mem (canonical_language "ZH_TW") ALL_LANGUAGES = true
   /\ (set_mem "ZH_TW" ALL_LANGUAGES = true -> canonical_language "ZH_TW" = "ZH_TW"))
  /\ (set_mem (canonical_language "fil") ALL_LANGUAGES = true
      /\ (set_mem "fil" ALL_LANGUAGES = true -> canonical_language "fil" = "fil")).
Proof.
  split.
  - apply (canonical_language_supported "ZH_TW"). right. reflexivity.
  - apply (canonical_language_supported "fil"). left. reflexivity.
Defined.

Definition disjointb (a b : list string) : bool :=
  forallb (fun x => negb (set_mem x b)) a.

Lemma disjointb_spec (a b : list string) (x : string) :
  disjointb a b = true -> set_mem x a = true -> set_mem x b = false.
Proof.
  intros Hd Hx. apply negb_true_iff.
  exact (forallb_set_mem _ _ _ Hd Hx).
Qed.

(** X11: the six tiers of [LANGUAGES] share no code and list none twice,
    so [ALL_LANGUAGES] is their disjoint union, 301 codes; every code is
    lowercase. *)
Theorem language_tiers_disjoint :
  NoDup (flat_map snd LANGUAGES)
  /\ ALL_LANGUAGES = flat_map snd LANGUAGES
  /\ List.length ALL_LANGUAGES = 301
  /\ Forall (fun l => Py.lower l = l) ALL_LANGUAGES.
Proof.
  split; [|split; [|split]].
  - apply distinct_NoDup. vm_compute. reflexivity.
  - vm_compute. reflexivity.
  - vm_compute. reflexivity.
  - apply Forall_forall. intros l Hl.
    assert (H : forallb (fun l => String.eqb (Py.lower l) l) ALL_LANGUAGES = true)
      by (vm_compute; reflexivity).
    apply String.eqb_eq. exact (proj1 (forallb_forall _ _) H l Hl).
Qed.

(** X12: the derived sets: [CORE_LANGUAGES] is ten distinct codes of the
    tier ["common"]; [COMMON_LANGUAGES] and [HISTORICAL_LANGUAGES] lie in
    [ALL_LANGUAGES]; a language is both common and historical exactly when
    it is in the tier ["common-historical"]; the languages with a name
    override are supported. *)
Theorem derived_language_sets (l : string) :
  (set_mem l CORE_LANGUAGES = true -> set_mem l (tier "common") = true)
  /\ distinct CORE_LANGUAGES = true
  /\ (set_mem l COMMON_LANGUAGES = true -> set_mem l ALL_LANGUAGES = true)
  /\ (set_mem l HISTORICAL_LANGUAGES = true -> set_mem l ALL_LANGUAGES = true)
  /\ set_mem l HISTORICAL_LANGUAGES && set_mem l COMMON_LANGUAGES
     = set_mem l (tier "common-historical")
  /\ (set_mem l (map fst LANGUAGE_NAME_OVERRIDES) = true ->
      set_mem l ALL_LANGUAGES = true).
Proof.
  assert (Hcore : forallb (fun x => set_mem x (tier "common")) CORE_LANGUAGES = true)
    by (vm_compute; reflexivity).
  assert (Hover : forallb (fun x => set_mem x ALL_LANGUAGES)
                          (map fst LANGUAGE_NAME_OVERRIDES) = true)
    by (vm_compute; reflexivity).
  assert (Hmh_c : disjointb (tier "more-historical") (tier "common") = true)
    by (vm_compute; reflexivity).
  assert (Hmh_ca : disjointb (tier "more-historical") (tier "common-artificial") = true)
    by (vm_compute; reflexivity).
  assert (Hall : set_mem l ALL_LANGUAGES
                 = set_mem l (tier "common") || set_mem l (tier "common-historical")
                   || set_mem l (tier "common-artificial") || set_mem l (tier "more")
                   || set_mem l (tier "more-historical")
                   || set_mem l (tier "more-artificial")).
  { unfold ALL_LANGUAGES, COMMON_LANGUAGES. now rewrite !set_mem_union. }
  assert (Hcommon : set_mem l COMMON_LANGUAGES
                    = set_mem l (tier "common") || set_mem l (tier "common-historical")
                      || set_mem l (tier "common-artificial")).
  { unfold COMMON_LANGUAGES. now rewrite !set_mem_union. }
  assert (Hhist : set_mem l HISTORICAL_LANGUAGES
                  = set_mem l (tier "common-historical")
                    || set_mem l (tier "more-historical")).
  { unfold HISTORICAL_LANGUAGES. now rewrite !set_mem_union. }
  split; [apply (forallb_set_mem _ _ _ Hcore)|].
  split; [vm_compute; reflexivity|].
  split; [rewrite Hall, Hcommon; intros ->; reflexivity|].
  split.
  { rewrite Hall, Hhist. intros H. apply orb_true_iff in H as [-> | ->];
      rewrite ?orb_true_r; reflexivity. }
  split; [|apply (forallb_set_mem _ _ _ Hover)].
  rewrite Hhist, Hcommon.
  destruct (set_mem l (tier "common-historical")) eqn:Hch;
    [now rewrite orb_true_r|]. cbn [orb andb].
  destruct (set_mem l (tier "more-historical")) eqn:Hmh; [|reflexivity].
  now rewrite (disjointb_spec _ _ _ Hmh_c Hmh), (disjointb_spec _ _ _ Hmh_ca Hmh).
Qed.

Lemma derived_language_sets_witness :
  set_mem "zh" (tier "common") = true
  /\ set_mem "la" ALL_LANGUAGES = true
  /\ set_mem "sh" ALL_LANGUAGES = true.
Proof.
  split; [|split].
  - exact (proj1 (derived_language_sets "zh") eq_refl).
  - exact (proj1 (proj2 (proj2 (proj2 (derived_language_sets "la")))) eq_refl).
  - exact (proj2 (proj2 (proj2 (proj2 (proj2 (derived_language_sets "sh"))))) eq_refl).
Defined.

(** ** Underscores and spaces *)

Lemma replace_space_then_underscore (s : string) :
  Py.replace "_" " " (Py.replace " " "_" s) = Py.replace "_" " " s.
Proof.
  induction s as [|c r IH]; simpl; [reflexivity|]. rewrite IH.
  destruct (Ascii.eqb_spec c " ") as [->|Hsp]; [reflexivity|].
  reflexivity.
Qed.

(** X1: text enters every function through [replace('_', ' ')], so two
    texts that differ only in having underscores for spaces are
    standardized alike, are valid alike, and give the same identifier and
    the same topic concept, whatever the collaborators. *)
Theorem separators_interchangeable (imports : Imports) (text1 text2 : string) :
  Py.replace "_" " " text1 = Py.replace "_" " " text2 ->
  (forall token_filter,
      standardize_text text1 token_filter = standardize_text text2 token_filter)
  /\ valid_concept_name text1 = valid_concept_name text2
  /\ (forall lang more,
         standardized_concept_uri lang text1 more
         = standardized_concept_uri lang text2 more)
  /\ (forall language, topic_to_concept language text1 = topic_to_concept language text2).
Proof.
  intros Hsame.
  assert (Hstd : forall token_filter,
             standardize_text text1 token_filter = standardize_text text2 token_filter).
  { intros token_filter. unfold standardize_text. now rewrite Hsame. }
  split; [exact Hstd|]. split; [|split].
  - unfold valid_concept_name. now rewrite Hstd.
  - intros lang more. unfold standardized_concept_uri. now rewrite Hstd.
  - intros language. unfold topic_to_concept. now rewrite Hsame.
Qed.

Lemma separators_interchangeable_witness :
  (forall token_filter,
      @standardize_text spec_model "a_big dog" token_filter
      = @standardize_text spec_model (Py.replace " " "_" "a_big dog") token_filter)
  /\ @valid_concept_name spec_model "a_big dog"
     = @valid_concept_name spec_model (Py.replace " " "_" "a_big dog")
  /\ (forall lang more,
         @standardized_concept_uri spec_model lang "a_big dog" more
         = @standardized_concept_uri spec_model lang
             (Py.replace " " "_" "a_big dog") more)
  /\ (forall language,
         @topic_to_concept spec_model language "a_big dog"
         = @topic_to_concept spec_model language (Py.replace " " "_" "a_big dog")).
Proof.
  apply (separators_interchangeable spec_model "a_big dog"
           (Py.replace " " "_" "a_big dog")).
  symmetry. apply replace_space_then_underscore.
Defined.

(** ** The language code in an identifier *)

Section LanguageClasses.

Context {imports : Imports}.

Lemma select_filter_literal (lang1 lang2 : string) :
  (lang1 = "en" <-> lang2 = "en") -> select_filter lang1 = select_filter lang2.
Proof.
  intros Hen. unfold select_filter.
  destruct (String.eqb_spec lang1 "en") as [H1|H1];
    destruct (String.eqb_spec lang2 "en") as [H2|H2]; try reflexivity.
  - now destruct H2; apply Hen.
  - now destruct H1; apply Hen.
Qed.

Lemma same_class_same_uri (lang1 lang2 text : string) (more : list (option string)) :
  canonical_language lang1 = canonical_language lang2 ->
  (lang1 = "en" <-> lang2 = "en") ->
  standardized_concept_uri lang1 text more = standardized_concept_uri lang2 text more.
Proof.
  intros Hcanon Hen. unfold standardized_concept_uri.
  now rewrite Hcanon, (select_filter_literal _ _ Hen).
Qed.

End LanguageClasses.

(** X2: the language code enters [standardized_concept_uri], and
    [topic_to_concept] through it, only by its canonical form and by
    whether it is literally ["en"]: two codes that agree on both give the
    same identifier for every text and qualifiers. *)
Theorem language_code_classes (imports : Imports) (lang1 lang2 : string) :
  canonical_language lang1 = canonical_language lang2 ->
  (lang1 = "en" <-> lang2 = "en") ->
  (forall text more,
      standardized_concept_uri lang1 text more
      = standardized_concept_uri lang2 text more)
  /\ (forall topic, topic_to_concept lang1 topic = topic_to_concept lang2 topic).
Proof.
  intros Hcanon Hen. split.
  - intros text more. now apply same_class_same_uri.
  - intros topic. unfold topic_to_concept.
    destruct (Re.match_title (Py.replace "_" " " topic)) as [[group1 group2]|];
      now apply same_class_same_uri.
Qed.

Lemma language_code_classes_witness :
  (forall text more,
      @standardized_concept_uri spec_model "zh_TW" text more
      = @standardized_concept_uri spec_model "cmn" text more)
  /\ (forall topic,
         @topic_to_concept spec_model "zh_TW" topic
         = @topic_to_concept spec_model "cmn" topic).
Proof.
  apply (language_code_classes spec_model "zh_TW" "cmn").
  - reflexivity.
  - split; intros H; discriminate H.
Defined.

(** X3: for a lowercase code, and for any code whose canonical form is
    not ["en"], the token filter is the one the canonical code would get,
    and building from the canonical code gives the same identifier. *)
Theorem canonical_code_same_uri (imports : Imports) (lang : string) :
  Py.lower lang = lang \/ canonical_language lang <> "en" ->
  select_filter (canonical_language lang) = select_filter lang
  /\ forall text more,
       standardized_concept_uri (canonical_language lang) text more
       = standardized_concept_uri lang text more.
Proof.
  intros Hlang.
  pose proof (literally_en_iff_canonically lang Hlang) as Hen.
  split.
  - apply select_filter_literal. tauto.
  - intros text more. apply same_class_same_uri.
    + apply canonical_language_twice.
    + tauto.
Qed.

Lemma canonical_code_same_uri_witness :
  @select_filter spec_model (canonical_language "nds-nl")
  = @select_filter spec_model "nds-nl"
  /\ forall text more,
       @standardized_concept_uri spec_model (canonical_language "nds-nl") text more
       = @standardized_concept_uri spec_model "nds-nl" text more.
Proof.
  apply (canonical_code_same_uri spec_model "nds-nl"). left. reflexivity.
Defined.

(** ** Topics without a parenthesised part *)

Lemma contains_replace (c old new : ascii) (s : string) :
  Ascii.eqb old c = false -> Ascii.eqb new c = false ->
  Py.contains c (Py.replace old new s) = Py.contains c s.
Proof.
  intros Hold Hnew. induction s as [|a r IH]; simpl; [reflexivity|].
  rewrite IH. destruct (Ascii.eqb_spec a old) as [->|_]; [|reflexivity].
  now rewrite Hold, Hnew.
Qed.

Lemma title_shape_parentheses (topic before inside trailing : string) :
  title_shape topic before inside trailing ->
  Py.contains "(" topic = true /\ Py.contains ")" topic = true.
Proof.
  intros (-> & _). rewrite !contains_append. cbn.
  rewrite ?orb_true_r. split; reflexivity.
Qed.

(** X4: a topic that lacks an opening or a closing parenthesis is never
    split: its concept is the one [standardized_concept_uri] builds from
    the whole topic with no qualifiers. *)
Theorem topic_without_parentheses (imports : Imports) (language topic : string) :
  Py.contains "(" topic = false \/ Py.contains ")" topic = false ->
  topic_to_concept language topic = standardized_concept_uri language topic [].
Proof.
  intros Hnone. unfold topic_to_concept.
  rewrite match_title_none.
  - unfold standardized_concept_uri. now rewrite standardize_text_replaced.
  - intros before inside trailing Hshape.
    apply title_shape_parentheses in Hshape as [Hopen Hclose].
    rewrite contains_replace in Hopen, Hclose by reflexivity.
    destruct Hnone; congruence.
Qed.

Lemma topic_without_parentheses_witness :
  @topic_to_concept spec_model "fr" "Tour_Eiffel)"
  = @standardized_concept_uri spec_model "fr" "Tour_Eiffel)" [].
Proof.
  apply (topic_without_parentheses spec_model "fr" "Tour_Eiffel)").
  left. reflexivity.
Defined.

(** ** Assertions *)

(** X5: through [n] nested assertions, [get_uri_language] returns what it
    returns on the identifier at the end of the chain of first components,
    given [n] more frames than that identifier needs. *)
Theorem nested_assertion_language (imports : Imports) (n depth : nat)
    (uri target : string) :
  first_component n uri target ->
  get_uri_language (n + S depth) uri = get_uri_language (S depth) target.
Proof. intros Hchain. now apply get_uri_language_nested. Qed.

Lemma nested_assertion_language_witness :
  @get_uri_language
    (spec_imports (fun _ uri => [substring 4 (String.length uri - 5) uri]))
    3 "/a/[/a/[/c/en/cat]]"
  = Ok (Some "en").
Proof.
  apply (nested_assertion_language
           (spec_imports (fun _ uri => [substring 4 (String.length uri - 5) uri]))
           2 0 "/a/[/a/[/c/en/cat]]" "/c/en/cat").
  apply first_component_inside with (first := "/a/[/c/en/cat]") (others := []);
    [reflexivity | reflexivity |].
  apply first_component_inside with (first := "/c/en/cat") (others := []);
    [reflexivity | reflexivity |].
  apply first_component_here. reflexivity.
Defined.

(** X6: what [get_uri_language] returns or raises, a [RecursionError]
    apart, is the same under every larger recursion limit. *)
Theorem language_independent_of_depth (imports : Imports) (depth extra : nat)
    (uri : string) (r : result (option string)) :
  get_uri_language depth uri = r ->
  r <> Raise RecursionError ->
  get_uri_language (extra + depth) uri = r.
Proof. intros Hr Hne. now apply get_uri_language_more_depth. Qed.

Lemma language_independent_of_depth_witness :
  @get_uri_language spec_model (999 + 1) "/c/en/cat" = Ok (Some "en").
Proof.
  apply (language_independent_of_depth spec_model 1 999 "/c/en/cat").
  - reflexivity.
  - intros H. discriminate H.
Defined.

Section Termination.

Context {imports : Imports}.


End Termination.



(** ** Supported languages, there and back *)

(** X13: with the modelled [concept_uri] and [split_uri], the identifier
    built for a supported language reads back as that language, unchanged,
    for every text and qualifiers. *)
Theorem supported_language_roundtrip (parse : string -> string -> list string)
    (depth : nat) (lang text : string) (more : list (option string)) :
  set_mem lang ALL_LANGUAGES = true ->
  @get_uri_language (spec_imports parse) (S depth)
    (@standardized_concept_uri (spec_imports parse) lang text more)
  = Ok (Some lang).
Proof.
  intros Hlang.
  pose proof (forallb_set_mem _ _ _ supported_slash_free Hlang) as Hslash.
  apply negb_true_iff in Hslash.
  pose proof (proj2 (language_read_back parse depth lang text more) Hslash) as H.
  rewrite (supported_language_fixed _ Hlang) in H. exact H.
Qed.

Lemma supported_language_roundtrip_witness :
  @get_uri_language spec_model 1
    (@standardized_concept_uri spec_model "roa-opt" "Senhor" [Some "n"])
  = Ok (Some "roa-opt").
Proof.
  exact (supported_language_roundtrip SpecModel.no_components 0
           "roa-opt" "Senhor" [Some "n"] eq_refl).
Defined.
